(** * Session-token cookies (backend) and the address page loader (frontend)

    Shallow embedding of
    - [src/lib/utils/cookie_response_token.py] (compiled module
      [cookie_response_token.cpython-39.pyc]): [create_response_cookies]
      and [update_response_cookies];
    - [routes/(user)/dashboard/address/+page.server.ts]: [load].

    The Python module reads, instruction by instruction,

<<
def create_response_cookies(user: User, background_task: BackgroundTasks,
                            request: Request) -> t.Union[Response, bool]:
    get_jwt_data_for_encode = schema.IToEncode(user_id=str(user.id))
    access_token, refresh_token = JWTAUTH.jwt_encoder(
        data=get_jwt_data_for_encode.dict())
    if access_token and refresh_token:
        background_task.add_task(auth_token_repo.create, user=user,
            request=request, refresh_token=refresh_token,
            access_token=access_token)
        response = Response(
            content=json.dumps(schema.IToken(refresh_token=refresh_token,
                                             access_token=access_token).dict()),
            status_code=200, media_type='application/json')
        response.set_cookie(key='auth_access_token', value=access_token,
            secure=True, httponly=config.debug, samesite='lax',
            max_age=config.access_token_expire_time)
        response.set_cookie(key='auth_refresh_token', value=refresh_token,
            secure=True, httponly=config.debug, samesite='lax',
            max_age=config.refresh_token_expire_time)
        return response
    return False

def update_response_cookies(user: User, background_task: BackgroundTasks,
                            request: Request) -> t.Union[Request, bool]:
    get_jwt_data_for_encode = schema.IToEncode(user_id=str(user.id))
    access_token, refresh_token = JWTAUTH.jwt_encoder(
        data=get_jwt_data_for_encode.dict())
    if access_token and refresh_token:
        background_task.add_task(auth_token_repo.create, user=user,
            request=request, refresh_token=refresh_token,
            access_token=access_token)
        request.cookies.update(key='auth_access_token', value=access_token,
            secure=True, httponly=config.debug, samesite='lax',
            max_age=config.access_token_expire_time,
            expires=datetime.datetime.now() + config.get_access_expires_time())
        request.cookies.update(key='auth_refresh_token', value=refresh_token,
            secure=True, httponly=config.debug, samesite='lax',
            expires=datetime.datetime.now() + config.get_refresh_expires_time(),
            max_age=config.refresh_token_expire_time)
        return request
    return False
>>

    In both functions the third keyword value of every cookie write is the
    constant [True] ([secure]) and the fourth is [config.debug]
    ([httponly]); the fifth is the constant ['lax'] ([samesite]).

    Both cookie writes of [update_response_cookies] are calls of
    [dict.update] with keyword arguments (the attribute [update] is loaded
    with LOAD_ATTR and called with CALL_FUNCTION_KW 7), so the keywords
    themselves become the keys of the mapping. *)

From Stdlib Require Import ZArith Lia Ascii String.
From stdpp Require Import base option list strings gmap pretty.

Local Open Scope Z_scope.

(** ** Python values *)

Module Py.

(** The Python values that reach a cookie mapping. A [datetime] and a
    [timedelta] are counted in seconds. *)
Inductive pyval :=
| VNone
| VBool (b : bool)
| VInt (z : Z)
| VStr (s : string)
| VDatetime (t : Z).

#[global] Instance pyval_eq_dec : EqDecision pyval.
Proof. solve_decision. Defined.

(** A bearer token as the signer hands it out: a string, or [None]. *)
Definition Token : Type := option string.

(** Truth value of a token in [if access_token and refresh_token]. *)
Definition truthy (t : Token) : bool :=
  match t with
  | Some (String _ _) => true
  | _ => false
  end.

Definition val_of_token (t : Token) : pyval :=
  match t with
  | Some s => VStr s
  | None => VNone
  end.

(** A [dict] with string keys and optional string values, in insertion
    order: what the pydantic models of [schema] give through [.dict()]. *)
Definition strdict : Type := list (string * Token).

(** The result of a function annotated [t.Union[X, bool]] that returns
    either an object or the literal [False]. *)
Inductive ret (A : Type) :=
| Obj (a : A)
| PyFalse.
Arguments Obj {A} a.
Arguments PyFalse {A}.

Definition is_obj {A} (r : ret A) : bool :=
  match r with Obj _ => true | PyFalse => false end.

(** *** [json.dumps] on a [strdict]

    Default arguments: [ensure_ascii=True], a comma and a space between
    items, a colon and a space between key and value. A character is a code
    point below 256. *)

Definition dquote : ascii := ascii_of_nat 34.
Definition backslash : ascii := ascii_of_nat 92.

Definition hexdigit (n : nat) : ascii :=
  nth n (list_ascii_of_string "0123456789abcdef") "0"%char.

Definition esc (c : ascii) : string := String backslash (String c EmptyString).

Definition py_escape_char (c : ascii) : string :=
  let n := nat_of_ascii c in
  if Nat.eqb n 34 then esc dquote
  else if Nat.eqb n 92 then esc backslash
  else if Nat.eqb n 10 then esc "n"
  else if Nat.eqb n 13 then esc "r"
  else if Nat.eqb n 9 then esc "t"
  else if Nat.eqb n 12 then esc "f"
  else if Nat.eqb n 8 then esc "b"
  else if Nat.ltb n 32 || Nat.ltb 126 n then
    String backslash
      (String "u" (String "0" (String "0"
        (String (hexdigit (Nat.div n 16))
          (String (hexdigit (Nat.modulo n 16)) EmptyString)))))
  else String c EmptyString.

Fixpoint py_escape (s : string) : string :=
  match s with
  | EmptyString => EmptyString
  | String c s' => py_escape_char c +:+ py_escape s'
  end.

Definition json_str (s : string) : string :=
  String dquote (py_escape s) +:+ String dquote EmptyString.

Definition json_token (t : Token) : string :=
  match t with
  | Some s => json_str s
  | None => "null"
  end.

Definition json_item (kv : string * Token) : string :=
  json_str kv.1 +:+ ": " +:+ json_token kv.2.

Fixpoint json_items (d : strdict) : string :=
  match d with
  | [] => EmptyString
  | [kv] => json_item kv
  | kv :: d' => json_item kv +:+ ", " +:+ json_items d'
  end.

Definition json_dumps (d : strdict) : string :=
  "{" +:+ json_items d +:+ "}".

(** *** pydantic models

    [.dict()] of a model built from keyword arguments, for a model whose
    declared fields are
    [fields]: the declared fields in declaration order, each with the value
    passed for it; a keyword that is not a declared field is ignored
    (pydantic's default [extra = ignore]). The module passes every declared
    field at each construction. *)
Definition kw_get {V} (k : string) (kw : list (string * V)) : option V :=
  snd <$> List.find (fun kv => bool_decide (kv.1 = k)) kw.

Definition model_dict (fields : list string) (kw : strdict) : strdict :=
  omap (fun f => pair f <$> kw_get f kw) fields.

(** [dict.update] called with keyword arguments only: every keyword is
    stored under its own name, left to right. *)
Definition dict_update (m : gmap string pyval) (kw : list (string * pyval))
  : gmap string pyval :=
  foldl (fun acc kv => <[kv.1 := kv.2]> acc) m kw.

End Py.

(** ** The backend module [cookie_response_token] *)

Module CookieResponseToken.
Import Py.

(** Objects that are passed around by reference live in a store. *)
Definition loc : Type := positive.

(** Modelled from the spec: [src.app.user.model.User] is not part of the
    sources at hand; the spec describes it as an identity with a unique
    [id], of which the module reads nothing but [str(user.id)]. *)
Inductive UserId :=
| IdInt (z : Z)
| IdStr (s : string).

Record User := { id : UserId }.

Definition py_str (i : UserId) : string :=
  match i with
  | IdInt z => pretty z
  | IdStr s => s
  end.

(** Modelled from the spec: [core.settings.config] is not part of the
    sources at hand; the spec lists the debug flag and the configured
    access and refresh durations. The attributes and methods are the ones
    the module reads; the two [get_*_expires_time] methods give the
    [timedelta] that is added to [datetime.datetime.now()]. *)
Record Settings := {
  debug : bool;
  access_token_expire_time : Z;
  refresh_token_expire_time : Z;
  get_access_expires_time : Z;
  get_refresh_expires_time : Z
}.

(** Modelled from the spec: [schema.IToEncode] is not part of the sources at
    hand; the spec says the encoder payload is built from [user.id], and the
    module passes the single keyword [user_id]. *)
Definition IToEncode_fields : list string := ["user_id"].

(** Modelled from the spec: [schema.IToken] is not part of the sources at
    hand; the spec gives the response body as the JSON object
    [{access_token}], the refresh token not being part of it. *)
Definition IToken_fields : list string := ["access_token"].

Definition IToEncode (kw : strdict) : strdict := model_dict IToEncode_fields kw.
Definition IToken (kw : strdict) : strdict := model_dict IToken_fields kw.

(** What [background_task.add_task] is given. *)
Inductive Callable := auth_token_repo_create.

Record Task := {
  func : Callable;
  kw_user : User;
  kw_request : loc;
  kw_refresh_token : Token;
  kw_access_token : Token
}.

(** One [Set-Cookie] header, as [Response.set_cookie] writes it. The module
    never passes [expires] or [path], which keep their defaults. *)
Record Cookie := {
  key : string;
  value : Token;
  max_age : option Z;
  expires : option Z;
  path : string;
  secure : bool;
  httponly : bool;
  samesite : option string
}.

Record Response := {
  content : string;
  status_code : Z;
  media_type : string;
  set_cookies : list Cookie
}.

(** A [Request]: its cookie mapping (a plain [dict]) and the rest of it. *)
Record Request := {
  cookies : gmap string pyval;
  scope : list (string * string)
}.

(** The calls the module makes to its collaborators, in order. *)
Inductive Event :=
| EvEncode (data : strdict)
| EvAddTask (bt : loc) (t : Task)
| EvResponse (status : Z) (body : string)
| EvSetCookie (c : Cookie)
| EvNow (t : Z)
| EvCookiesUpdate (r : loc) (kw : list (string * pyval)).

Record World := {
  requests : gmap loc Request;
  background : gmap loc (list Task);
  now_reads : nat;
  trace : list Event
}.

Definition log (e : Event) (w : World) : World :=
  {| requests := requests w; background := background w;
     now_reads := now_reads w; trace := trace w ++ [e] |}.

(** *** State passing *)

Definition M (A : Type) : Type := World -> A * World.

#[global] Instance M_ret : MRet M := fun A a w => (a, w).
#[global] Instance M_bind : MBind M :=
  fun A B f m w => let (a, w1) := m w in f a w1.

Section Functions.

Variable config : Settings.

(** [JWTAUTH.jwt_encoder] of [src.lib.utils.security], which is not part of
    the sources at hand: any function from the payload to a pair of
    tokens. Each run calls it once, so nothing is lost by its being a
    function of the payload alone. *)
Variable jwt_encoder : strdict -> Token * Token.

(** What the n-th call of [datetime.datetime.now()] returns. *)
Variable clock : nat -> Z.

Definition JWTAUTH_jwt_encoder (data : strdict) : M (Token * Token) :=
  fun w => (jwt_encoder data, log (EvEncode data) w).

Definition add_task (bt : loc) (t : Task) : M unit :=
  fun w =>
    (tt, log (EvAddTask bt t)
           {| requests := requests w;
              background := alter (fun q => q ++ [t]) bt (background w);
              now_reads := now_reads w; trace := trace w |}).

Definition Response_init (content : string) (status_code : Z)
    (media_type : string) : M Response :=
  fun w =>
    ({| content := content; status_code := status_code;
        media_type := media_type; set_cookies := [] |},
     log (EvResponse status_code content) w).

Definition set_cookie (r : Response) (c : Cookie) : M Response :=
  fun w =>
    ({| content := content r; status_code := status_code r;
        media_type := media_type r; set_cookies := set_cookies r ++ [c] |},
     log (EvSetCookie c) w).

Definition datetime_now : M Z :=
  fun w =>
    let t := clock (now_reads w) in
    (t, log (EvNow t)
          {| requests := requests w; background := background w;
             now_reads := S (now_reads w); trace := trace w |}).

Definition set_request_cookies (m : gmap string pyval) (rq : Request)
  : Request :=
  {| cookies := m; scope := scope rq |}.

Definition cookies_update (r : loc) (kw : list (string * pyval)) : M unit :=
  fun w =>
    (tt, log (EvCookiesUpdate r kw)
           {| requests :=
                alter (fun rq => set_request_cookies
                                   (dict_update (cookies rq) kw) rq)
                  r (requests w);
              background := background w;
              now_reads := now_reads w; trace := trace w |}).

Definition persist_task (user : User) (request : loc)
    (refresh_token access_token : Token) : Task :=
  {| func := auth_token_repo_create; kw_user := user; kw_request := request;
     kw_refresh_token := refresh_token; kw_access_token := access_token |}.

Definition create_response_cookies (user : User) (background_task : loc)
    (request : loc) : M (ret Response) :=
  let get_jwt_data_for_encode :=
    IToEncode [("user_id", Some (py_str (id user)))] in
  tokens ← JWTAUTH_jwt_encoder get_jwt_data_for_encode;
  let access_token := tokens.1 in
  let refresh_token := tokens.2 in
  if truthy access_token && truthy refresh_token then
    add_task background_task
      (persist_task user request refresh_token access_token);;
    response ← Response_init
      (json_dumps (IToken [("refresh_token", refresh_token);
                           ("access_token", access_token)]))
      200 "application/json";
    response ← set_cookie response
      {| key := "auth_access_token"; value := access_token;
         secure := true; httponly := debug config; samesite := Some "lax";
         max_age := Some (access_token_expire_time config);
         expires := None; path := "/" |};
    response ← set_cookie response
      {| key := "auth_refresh_token"; value := refresh_token;
         secure := true; httponly := debug config; samesite := Some "lax";
         max_age := Some (refresh_token_expire_time config);
         expires := None; path := "/" |};
    mret (Obj response)
  else mret PyFalse.

Definition update_response_cookies (user : User) (background_task : loc)
    (request : loc) : M (ret loc) :=
  let get_jwt_data_for_encode :=
    IToEncode [("user_id", Some (py_str (id user)))] in
  tokens ← JWTAUTH_jwt_encoder get_jwt_data_for_encode;
  let access_token := tokens.1 in
  let refresh_token := tokens.2 in
  if truthy access_token && truthy refresh_token then
    add_task background_task
      (persist_task user request refresh_token access_token);;
    now ← datetime_now;
    cookies_update request
      [("key", VStr "auth_access_token");
       ("value", val_of_token access_token);
       ("secure", VBool true);
       ("httponly", VBool (debug config));
       ("samesite", VStr "lax");
       ("max_age", VInt (access_token_expire_time config));
       ("expires", VDatetime (now + get_access_expires_time config))];;
    now ← datetime_now;
    cookies_update request
      [("key", VStr "auth_refresh_token");
       ("value", val_of_token refresh_token);
       ("secure", VBool true);
       ("httponly", VBool (debug config));
       ("samesite", VStr "lax");
       ("expires", VDatetime (now + get_refresh_expires_time config));
       ("max_age", VInt (refresh_token_expire_time config))];;
    mret (Obj request)
  else mret PyFalse.

(** The payload handed to the signer, the pair it signs, and whether the
    guard [if access_token and refresh_token] lets the call through. *)
Definition payload (user : User) : strdict :=
  IToEncode [("user_id", Some (py_str (id user)))].

Definition signed (user : User) : Token * Token := jwt_encoder (payload user).

Definition succeeds (user : User) : bool :=
  truthy (signed user).1 && truthy (signed user).2.

(** The two cookies of a successful [create_response_cookies]. *)
Definition access_cookie (a : Token) : Cookie :=
  {| key := "auth_access_token"; value := a;
     max_age := Some (access_token_expire_time config); expires := None;
     path := "/"; secure := true; httponly := debug config;
     samesite := Some "lax" |}.

Definition refresh_cookie (r : Token) : Cookie :=
  {| key := "auth_refresh_token"; value := r;
     max_age := Some (refresh_token_expire_time config); expires := None;
     path := "/"; secure := true; httponly := debug config;
     samesite := Some "lax" |}.

Definition body_of (a r : Token) : string :=
  json_dumps (IToken [("refresh_token", r); ("access_token", a)]).

Definition issued (a r : Token) : Response :=
  {| content := body_of a r; status_code := 200;
     media_type := "application/json";
     set_cookies := [access_cookie a; refresh_cookie r] |}.

(** The keyword arguments of the two mapping writes of
    [update_response_cookies], given the clock reading of each. *)
Definition access_kw (a : Token) (now : Z) : list (string * pyval) :=
  [("key", VStr "auth_access_token"); ("value", val_of_token a);
   ("secure", VBool true); ("httponly", VBool (debug config));
   ("samesite", VStr "lax");
   ("max_age", VInt (access_token_expire_time config));
   ("expires", VDatetime (now + get_access_expires_time config))].

Definition refresh_kw (r : Token) (now : Z) : list (string * pyval) :=
  [("key", VStr "auth_refresh_token"); ("value", val_of_token r);
   ("secure", VBool true); ("httponly", VBool (debug config));
   ("samesite", VStr "lax");
   ("expires", VDatetime (now + get_refresh_expires_time config));
   ("max_age", VInt (refresh_token_expire_time config))].

End Functions.

(** *** Reading a trace *)

Definition events_since (w w' : World) : list Event :=
  drop (length (trace w)) (trace w').

Definition scheduled (evs : list Event) : list (loc * Task) :=
  omap (fun e => match e with EvAddTask bt t => Some (bt, t) | _ => None end)
       evs.

Definition responses_built (evs : list Event) : list (Z * string) :=
  omap (fun e => match e with EvResponse st b => Some (st, b) | _ => None end)
       evs.

Definition cookie_writes (evs : list Event)
  : list (loc * list (string * pyval)) :=
  omap (fun e => match e with
                 | EvCookiesUpdate r kw => Some (r, kw)
                 | _ => None
                 end) evs.

(** Position of the first event satisfying [p]. *)
Fixpoint first_index (p : Event -> bool) (evs : list Event) : option nat :=
  match evs with
  | [] => None
  | e :: evs' => if p e then Some O else S <$> first_index p evs'
  end.

Definition is_encode (e : Event) : bool :=
  match e with EvEncode _ => true | _ => false end.
Definition is_add_task (e : Event) : bool :=
  match e with EvAddTask _ _ => true | _ => false end.
Definition is_response (e : Event) : bool :=
  match e with EvResponse _ _ => true | _ => false end.
Definition is_set_cookie (e : Event) : bool :=
  match e with EvSetCookie _ => true | _ => false end.

(** The attribute contract as the spec words it. *)
Definition spec_flags (c : Cookie) : Prop :=
  httponly c = true /\ secure c = true /\ samesite c = Some "lax".

(** The keyword names of the two mapping writes of
    [update_response_cookies]; both writes use the same seven. *)
Definition cookie_keywords : list string :=
  ["key"; "value"; "secure"; "httponly"; "samesite"; "max_age"; "expires"].

Definition clock_reads (evs : list Event) : list Z :=
  omap (fun e => match e with EvNow t => Some t | _ => None end) evs.

Definition encodes (evs : list Event) : list strdict :=
  omap (fun e => match e with EvEncode d => Some d | _ => None end) evs.

(** A character [json.dumps] writes as it is: printable ASCII other than
    the double quote and the backslash. Every character of a JWT is one. *)
Definition plain_char (c : ascii) : bool :=
  let n := nat_of_ascii c in
  Nat.leb 32 n && Nat.leb n 126 && negb (Nat.eqb n 34) && negb (Nat.eqb n 92).

Fixpoint plain (s : string) : bool :=
  match s with
  | EmptyString => true
  | String c s' => plain_char c && plain s'
  end.

(** Whether the character [c] is one of the characters of [s]. *)
Fixpoint has_char (c : ascii) (s : string) : bool :=
  match s with
  | EmptyString => false
  | String d s' => Ascii.eqb d c || has_char c s'
  end.

(** Whether [s] begins with [r], and whether [r] occurs somewhere in [s] as
    a run of consecutive characters. *)
Fixpoint starts_with (r s : string) : bool :=
  match r, s with
  | EmptyString, _ => true
  | String a r', String b s' => Ascii.eqb a b && starts_with r' s'
  | String _ _, EmptyString => false
  end.

Fixpoint occursb (r s : string) : bool :=
  starts_with r s ||
  match s with
  | EmptyString => false
  | String _ s' => occursb r s'
  end.

End CookieResponseToken.

(** ** The frontend page loader [+page.server.ts]

<<
export const load: PageServerLoad = async ({ fetch }) => {
	return {
		addressList: get_addressList(fetch)
	};
};
>>
*)

Module AddressPage.

Section Load.

(** The fetch capability, the values of the language, and the state the
    accessor may touch (requests in flight). *)
Variables Fetch Value St : Type.

(** [get_addressList] of [$root/lib/utils/page/address], which is not part
    of the sources at hand: any function of the fetch capability, with its
    effect on the state. *)
Variable get_addressList : Fetch -> St -> Value * St.

(** The argument of a server load function; [load] destructures [fetch]
    out of it. *)
Record ServerLoadEvent := {
  fetch : Fetch;
  route : string
}.

(** An object literal: its own keys in order. *)
Definition JsObject : Type := list (string * Value).

(** An [async] function without [await] returns a settled promise. *)
Inductive Promise (A : Type) :=
| Fulfilled (a : A).
Arguments Fulfilled {A} a.

Definition load (ev : ServerLoadEvent) : St -> Promise JsObject * St :=
  fun s =>
    let (v, s1) := get_addressList (fetch ev) s in
    (Fulfilled [("addressList", v)], s1).

(** The accessor with a log of the capabilities it was called with. *)
Definition logged (f : Fetch -> St -> Value * St)
  : Fetch -> list Fetch * St -> Value * (list Fetch * St) :=
  fun x ls =>
    let (v, s1) := f x ls.2 in (v, (ls.1 ++ [x], s1)).

End Load.

Arguments fetch {Fetch} _.
Arguments route {Fetch} _.
Arguments Fulfilled {A} a.
Arguments load {Fetch Value St} get_addressList ev _.
Arguments logged {Fetch Value St} f _ _.

End AddressPage.

(** ** Sample inputs *)

Module Sample.
Import Py CookieResponseToken.

Definition settings (dbg : bool) : Settings :=
  {| debug := dbg;
     access_token_expire_time := 900;
     refresh_token_expire_time := 604800;
     get_access_expires_time := 900;
     get_refresh_expires_time := 604800 |}.

Definition user42 : User := {| id := IdStr "42" |}.

Definition signer (a r : Token) : strdict -> Token * Token := fun _ => (a, r).

Definition clock (n : nat) : Z := 1000 + Z.of_nat n.

(** A signer that works, and two that fail. *)
Definition enc : strdict -> Token * Token := signer (Some "A") (Some "R").
Definition enc_empty : strdict -> Token * Token :=
  signer (Some EmptyString) (Some "R").
Definition enc_unset : strdict -> Token * Token := signer (Some "A") None.

(** One request (at 1) carrying a session cookie, one empty task queue
    (at 2). *)
Definition world : World :=
  {| requests := {[ 1%positive :=
                      {| cookies := {[ "theme" := VStr "dark" ]};
                         scope := [("path", "/login")] |} ]};
     background := {[ 2%positive := [] ]};
     now_reads := 0;
     trace := [] |}.

(** The request stored at 1 in [world]. *)
Definition request0 : Request :=
  {| cookies := {[ "theme" := VStr "dark" ]};
     scope := [("path", "/login")] |}.

(** A second user, and a signer that tells the users apart. *)
Definition user7 : User := {| id := IdInt 7 |}.

Definition enc_by_user : strdict -> Token * Token :=
  fun d =>
    match kw_get "user_id" d with
    | Some (Some u) => (Some ("A" +:+ u), Some ("R" +:+ u))
    | _ => (None, None)
    end.

(** A signer whose tokens have the shape of a JWT. *)
Definition enc_jwt : strdict -> Token * Token :=
  signer (Some "eyJhbGciOi.eyJhY2Nlc3M.c2ln")
         (Some "eyJhbGciOi.eyJyZWZyZXNo.c2ln").

(** A signer whose access token needs escaping. *)
Definition enc_quote : strdict -> Token * Token :=
  signer (Some (String Py.dquote
                  (String Py.backslash (String (ascii_of_nat 233) "x"))))
         (Some "R").

End Sample.

(** * Text of the response body *)

Module BodyText.
Import Py CookieResponseToken.

Abbreviation chars := list_ascii_of_string.

Lemma chars_append s1 s2 : chars (s1 +:+ s2) = chars s1 ++ chars s2.
Proof.
  induction s1 as [|c s1 IH]; simpl; [reflexivity|]. rewrite IH. reflexivity.
Qed.

Lemma chars_inj s1 s2 : chars s1 = chars s2 -> s1 = s2.
Proof.
  intros H. rewrite <- (string_of_list_ascii_of_string s1).
  rewrite <- (string_of_list_ascii_of_string s2). rewrite H. reflexivity.
Qed.

Lemma chars_length s : length (chars s) = String.length s.
Proof.
  induction s as [|c s IH]; simpl; [reflexivity|]. rewrite IH. reflexivity.
Qed.

Lemma has_char_elem c s : has_char c s = true <-> c ∈ chars s.
Proof.
  induction s as [|d s IH]; simpl.
  - split; [discriminate|]. intros H. apply elem_of_nil in H. destruct H.
  - rewrite orb_true_iff, Ascii.eqb_eq, IH, elem_of_cons.
    split; intros [H|H]; auto.
Qed.

Lemma starts_with_chars r s :
  starts_with r s = true <-> exists q, chars s = chars r ++ q.
Proof.
  revert s. induction r as [|a r IH]; intros s; simpl.
  - split; [intros _; exists (chars s); reflexivity|reflexivity].
  - destruct s as [|b s]; simpl.
    + split; [discriminate|]. intros [q H]. discriminate H.
    + rewrite andb_true_iff, Ascii.eqb_eq, IH. split.
      * intros [-> [q ->]]. exists q. reflexivity.
      * intros [q H]. injection H as -> H. split; [reflexivity|].
        exists q. exact H.
Qed.

(** [occursb] is the test for a run of consecutive characters. *)
Lemma occursb_chars r s :
  occursb r s = true <-> exists p q, chars s = p ++ chars r ++ q.
Proof.
  induction s as [|c s IH].
  - simpl. rewrite orb_false_r, starts_with_chars. split.
    + intros [q H]. exists [], q. exact H.
    + intros (p & q & H). simpl in H. symmetry in H.
      apply app_eq_nil in H as [-> H]. exists q. symmetry. exact H.
  - change (occursb r (String c s))
      with (starts_with r (String c s) || occursb r s).
    rewrite orb_true_iff, starts_with_chars, IH. split.
    + intros [[q H]|(p & q & H)].
      * exists [], q. exact H.
      * exists (c :: p), q. simpl. rewrite H. reflexivity.
    + intros (p & q & H). destruct p as [|d p].
      * left. exists q. exact H.
      * right. simpl in H. injection H as _ H. exists p, q. exact H.
Qed.

Lemma occursb_string r s :
  occursb r s = true <-> exists p q, s = p +:+ r +:+ q.
Proof.
  rewrite occursb_chars. split.
  - intros (p & q & H).
    exists (string_of_list_ascii p), (string_of_list_ascii q).
    apply chars_inj. rewrite !chars_append.
    rewrite !list_ascii_of_string_of_list_ascii. exact H.
  - intros (p & q & ->). exists (chars p), (chars q).
    rewrite !chars_append. reflexivity.
Qed.

(** A run without the character [c] that occurs in a text lies on one side
    of any [c] in that text. *)
Lemma split_at_char (c : ascii) (r l1 l2 p q : list ascii) :
  c ∉ r ->
  l1 ++ c :: l2 = p ++ r ++ q ->
  (exists q', l1 = p ++ r ++ q') \/ (exists p', l2 = p' ++ r ++ q).
Proof.
  intros Hc H. apply app_eq_app in H as [l [[H1 H2]|[H1 H2]]].
  - apply app_eq_app in H2 as [l' [[H3 H4]|[H3 H4]]].
    + destruct l' as [|d l'].
      * left. exists []. rewrite app_nil_r in H3. subst. rewrite app_nil_r.
        reflexivity.
      * exfalso. apply Hc. injection H4 as <- _. rewrite H3.
        apply elem_of_app. right. apply elem_of_cons. left. reflexivity.
    + left. exists l'. subst. reflexivity.
  - destruct l as [|d l].
    + destruct r as [|d r].
      * left. exists []. rewrite app_nil_r in H1. subst.
        rewrite app_nil_r. reflexivity.
      * exfalso. apply Hc. injection H2 as <- _. apply elem_of_cons.
        left. reflexivity.
    + right. exists l. injection H2 as _ H2. exact H2.
Qed.

Lemma occurs_length (r l p q : list ascii) :
  l = p ++ r ++ q -> (length r <= length l)%nat.
Proof. intros ->. rewrite !length_app. lia. Qed.

Lemma plain_char_escape c :
  plain_char c = true -> py_escape_char c = String c EmptyString.
Proof.
  destruct c as [[] [] [] [] [] [] [] []]; vm_compute;
    first [discriminate | reflexivity].
Qed.

(** A plain string is written as it is. *)
Lemma plain_escape s : plain s = true -> py_escape s = s.
Proof.
  induction s as [|c s IH]; [reflexivity|]. simpl plain.
  rewrite andb_true_iff. intros [Hc Hs].
  change (py_escape (String c s)) with (py_escape_char c +:+ py_escape s).
  rewrite plain_char_escape, IH by assumption. reflexivity.
Qed.

(** The body written for an access token [a], as a list of characters. *)
Lemma object_chars (a : string) :
  chars (json_dumps [("access_token", Some a)]) =
    "{"%char :: "034"%char :: chars "access_token" ++
    "034"%char :: ":"%char :: " "%char :: "034"%char :: chars (py_escape a) ++
    ["034"%char; "}"%char].
Proof.
  unfold json_dumps, json_items, json_item, json_token, json_str.
  cbn [fst snd]. rewrite !chars_append. simpl.
  rewrite <- ?app_assoc. reflexivity.
Qed.

(** The body written for an access token [a], character by character. *)
Lemma object_text (a : string) :
  json_dumps [("access_token", Some a)] =
    String "{"%char (String "034"%char ("access_token" +:+
      String "034"%char (": " +:+
        String "034"%char (py_escape a +:+ String "034"%char "}")))).
Proof.
  apply chars_inj. rewrite object_chars. simpl. rewrite !chars_append.
  simpl. reflexivity.
Qed.

(** What a declaration of [IToken] with a field [refresh_token] would put
    into the dictionary that is serialised. *)
Lemma declared_refresh_field (fields : list string) (a r : Token) :
  "refresh_token" ∈ fields ->
  ("refresh_token", r) ∈
    model_dict fields [("refresh_token", r); ("access_token", a)].
Proof.
  intros Hin. unfold model_dict. apply list_elem_of_omap.
  exists "refresh_token". split; [exact Hin|reflexivity].
Qed.

(** A run of more than twelve characters without a double quote occurs in
    the body written for a plain token only if it occurs in the token. *)
Lemma occurs_in_object (a r : string) :
  plain a = true ->
  has_char "034"%char r = false ->
  (12 < String.length r)%nat ->
  occursb r a = false ->
  occursb r (json_dumps [("access_token", Some a)]) = false.
Proof.
  intros Ha Hq Hlen Hno.
  destruct (occursb r (json_dumps [("access_token", Some a)])) eqn:E;
    [|reflexivity].
  exfalso. apply occursb_chars in E as (p & q & E).
  rewrite object_chars, (plain_escape a Ha) in E.
  assert (Hc : "034"%char ∉ chars r).
  { intros Hin. apply has_char_elem in Hin. congruence. }
  rewrite <- chars_length in Hlen.
  change ("{"%char :: "034"%char :: ?x)
    with (["{"%char] ++ "034"%char :: x) in E.
  destruct (split_at_char _ _ _ _ _ _ Hc E) as [[q1 E1]|[p1 E1]].
  { apply occurs_length in E1. simpl in E1. lia. }
  destruct (split_at_char _ _ _ _ _ _ Hc E1) as [[q2 E2]|[p2 E2]].
  { apply occurs_length in E2. simpl in E2. lia. }
  change (":"%char :: " "%char :: "034"%char :: ?x)
    with ([":"%char; " "%char] ++ "034"%char :: x) in E2.
  destruct (split_at_char _ _ _ _ _ _ Hc E2) as [[q3 E3]|[p3 E3]].
  { apply occurs_length in E3. simpl in E3. lia. }
  destruct (split_at_char _ _ _ _ _ _ Hc E3) as [[q4 E4]|[p4 E4]].
  { assert (Ho : occursb r a = true) by (apply occursb_chars; eauto).
    congruence. }
  apply occurs_length in E4. simpl in E4. lia.
Qed.

End BodyText.

(** * Properties of the backend module *)

Module TokenCookies.
Import Py CookieResponseToken.

Section Runs.

Variable config : Settings.
Variable jwt_encoder : strdict -> Token * Token.
Variable clock : nat -> Z.

Abbreviation create := (create_response_cookies config jwt_encoder).
Abbreviation update := (update_response_cookies config jwt_encoder clock).
Abbreviation tokens := (signed jwt_encoder).
Abbreviation ok := (succeeds jwt_encoder).
Abbreviation access_cookie := (CookieResponseToken.access_cookie config).
Abbreviation refresh_cookie := (CookieResponseToken.refresh_cookie config).
Abbreviation issued := (CookieResponseToken.issued config).
Abbreviation access_kw := (CookieResponseToken.access_kw config).
Abbreviation refresh_kw := (CookieResponseToken.refresh_kw config).

(** Running a computation one call at a time. *)
Lemma bind_run {A B} (m : M A) (f : A -> M B) w a w1 :
  m w = (a, w1) -> (m ≫= f) w = f a w1.
Proof. intros H. unfold mbind, M_bind. rewrite H. reflexivity. Qed.

Ltac start :=
  unfold succeeds, signed, payload in *;
  unfold create_response_cookies, update_response_cookies;
  cbv zeta.

Ltac step :=
  erewrite bind_run by reflexivity;
  cbn [log requests background now_reads trace fst snd
       content status_code media_type set_cookies app].

Ltac finish :=
  unfold mret, M_ret, log;
  cbn [requests background now_reads trace];
  rewrite <- ?app_assoc; reflexivity.

Lemma create_run_ok user bt rq w :
  ok user = true ->
  create user bt rq w =
    (Obj (issued (tokens user).1 (tokens user).2),
     {| requests := requests w;
        background :=
          alter (fun q => q ++ [persist_task user rq (tokens user).2
                                  (tokens user).1]) bt (background w);
        now_reads := now_reads w;
        trace := trace w ++
          [EvEncode (payload user);
           EvAddTask bt (persist_task user rq (tokens user).2 (tokens user).1);
           EvResponse 200 (body_of (tokens user).1 (tokens user).2);
           EvSetCookie (access_cookie (tokens user).1);
           EvSetCookie (refresh_cookie (tokens user).2)] |}).
Proof.
  intros Hok. destruct w as [rqs bgs n tr]. start. step. rewrite Hok.
  repeat step. finish.
Qed.

Lemma create_run_fail user bt rq w :
  ok user = false ->
  create user bt rq w = (PyFalse, log (EvEncode (payload user)) w).
Proof.
  intros Hko. destruct w as [rqs bgs n tr]. start. step. rewrite Hko.
  finish.
Qed.

Lemma update_run_ok user bt rq w :
  ok user = true ->
  update user bt rq w =
    (Obj rq,
     {| requests :=
          alter (fun x => set_request_cookies
                   (dict_update (cookies x)
                      (refresh_kw (tokens user).2 (clock (S (now_reads w)))))
                   x) rq
            (alter (fun x => set_request_cookies
                      (dict_update (cookies x)
                         (access_kw (tokens user).1 (clock (now_reads w))))
                      x) rq
               (requests w));
        background :=
          alter (fun q => q ++ [persist_task user rq (tokens user).2
                                  (tokens user).1]) bt (background w);
        now_reads := S (S (now_reads w));
        trace := trace w ++
          [EvEncode (payload user);
           EvAddTask bt (persist_task user rq (tokens user).2 (tokens user).1);
           EvNow (clock (now_reads w));
           EvCookiesUpdate rq
             (access_kw (tokens user).1 (clock (now_reads w)));
           EvNow (clock (S (now_reads w)));
           EvCookiesUpdate rq
             (refresh_kw (tokens user).2 (clock (S (now_reads w))))] |}).
Proof.
  intros Hok. destruct w as [rqs bgs n tr]. start. step. rewrite Hok.
  repeat step. finish.
Qed.

Lemma update_run_fail user bt rq w :
  ok user = false ->
  update user bt rq w = (PyFalse, log (EvEncode (payload user)) w).
Proof.
  intros Hko. destruct w as [rqs bgs n tr]. start. step. rewrite Hko.
  finish.
Qed.

(** A call returns an object exactly when the guard lets it through. *)
Lemma create_returns user bt rq w :
  is_obj (create user bt rq w).1 = ok user.
Proof.
  destruct (ok user) eqn:E.
  - rewrite create_run_ok by exact E. reflexivity.
  - rewrite create_run_fail by exact E. reflexivity.
Qed.

Lemma update_returns user bt rq w :
  is_obj (update user bt rq w).1 = ok user.
Proof.
  destruct (ok user) eqn:E.
  - rewrite update_run_ok by exact E. reflexivity.
  - rewrite update_run_fail by exact E. reflexivity.
Qed.

Lemma create_inv user bt rq w resp w' :
  create user bt rq w = (Obj resp, w') ->
  ok user = true /\
  resp = issued (tokens user).1 (tokens user).2 /\
  w' = (create user bt rq w).2.
Proof.
  intros H. destruct (ok user) eqn:E.
  - rewrite H. cbn [snd]. rewrite create_run_ok in H by exact E.
    inversion H; subst. auto.
  - rewrite create_run_fail in H by exact E. discriminate H.
Qed.

Lemma update_inv user bt rq w l w' :
  update user bt rq w = (Obj l, w') ->
  ok user = true /\ l = rq /\ w' = (update user bt rq w).2.
Proof.
  intros H. destruct (ok user) eqn:E.
  - rewrite H. cbn [snd]. rewrite update_run_ok in H by exact E.
    inversion H; subst. auto.
  - rewrite update_run_fail in H by exact E. discriminate H.
Qed.

Lemma ok_tokens user :
  ok user = true ->
  exists a r, (tokens user).1 = Some a /\ (tokens user).2 = Some r /\
              a <> EmptyString /\ r <> EmptyString.
Proof.
  unfold succeeds. intros H. apply andb_prop in H as [Ha Hr].
  destruct (tokens user).1 as [[|c s]|]; try discriminate Ha.
  destruct (tokens user).2 as [[|c' s']|]; try discriminate Hr.
  eexists _, _. repeat split; discriminate.
Qed.

Lemma events_since_app w w' evs :
  trace w' = trace w ++ evs -> events_since w w' = evs.
Proof.
  unfold events_since. intros ->. apply drop_app_length.
Qed.

Lemma events_create_ok user bt rq w :
  ok user = true ->
  events_since w (create user bt rq w).2 =
    [EvEncode (payload user);
     EvAddTask bt (persist_task user rq (tokens user).2 (tokens user).1);
     EvResponse 200 (body_of (tokens user).1 (tokens user).2);
     EvSetCookie (access_cookie (tokens user).1);
     EvSetCookie (refresh_cookie (tokens user).2)].
Proof.
  intros Hok. apply events_since_app.
  rewrite create_run_ok by exact Hok. reflexivity.
Qed.

Lemma events_update_ok user bt rq w :
  ok user = true ->
  events_since w (update user bt rq w).2 =
    [EvEncode (payload user);
     EvAddTask bt (persist_task user rq (tokens user).2 (tokens user).1);
     EvNow (clock (now_reads w));
     EvCookiesUpdate rq (access_kw (tokens user).1 (clock (now_reads w)));
     EvNow (clock (S (now_reads w)));
     EvCookiesUpdate rq
       (refresh_kw (tokens user).2 (clock (S (now_reads w))))].
Proof.
  intros Hok. apply events_since_app.
  rewrite update_run_ok by exact Hok. reflexivity.
Qed.

Lemma events_fail w e : events_since w (log e w) = [e].
Proof. apply events_since_app. reflexivity. Qed.

(** The body is the serialised [access_token] field alone. *)
Lemma body_of_access a r : body_of a r = json_dumps [("access_token", a)].
Proof. reflexivity. Qed.

Lemma queue_after (bt : loc) (w : World) q t :
  background w !! bt = Some q ->
  alter (fun q0 => q0 ++ [t]) bt (background w) !! bt = Some (q ++ [t]) /\
  (forall b, b <> bt ->
     alter (fun q0 => q0 ++ [t]) bt (background w) !! b = background w !! b).
Proof.
  intros Hq. split.
  - rewrite lookup_alter_eq, Hq. reflexivity.
  - intros b Hb. apply lookup_alter_ne. congruence.
Qed.

(** What [update_response_cookies] does to the store of requests: only the
    request it was given changes, and of that one only the cookie mapping,
    which receives the two keyword writes one after the other. *)
Lemma update_frame user bt rq w r0 :
  requests w !! rq = Some r0 ->
  ok user = true ->
  let w' := (update user bt rq w).2 in
  requests w' !! rq =
    Some {| cookies :=
              dict_update
                (dict_update (cookies r0)
                   (access_kw (tokens user).1 (clock (now_reads w))))
                (refresh_kw (tokens user).2 (clock (S (now_reads w))));
            scope := scope r0 |} /\
  (forall l, l <> rq -> requests w' !! l = requests w !! l).
Proof.
  intros Hr Hok w'. subst w'. rewrite update_run_ok by exact Hok.
  cbn [snd requests]. split.
  - rewrite !lookup_alter_eq, Hr. reflexivity.
  - intros l Hl. rewrite !lookup_alter_ne by congruence. reflexivity.
Qed.

(** The two writes never touch an entry named after a cookie: whatever the
    mapping held under the two cookie names before, it holds after. *)
Lemma update_named_entries m a r t1 t2 (name : string) :
  name ∈ ["auth_access_token"; "auth_refresh_token"] ->
  dict_update (dict_update m (access_kw a t1)) (refresh_kw r t2) !! name
    = m !! name.
Proof.
  intros Hn. unfold dict_update, CookieResponseToken.access_kw,
    CookieResponseToken.refresh_kw. cbn [foldl fst snd].
  apply elem_of_cons in Hn as [-> | Hn];
    [|apply list_elem_of_singleton in Hn as ->];
    rewrite !lookup_insert_ne by discriminate; reflexivity.
Qed.

(** After the two writes, the seven keyword names hold the values of the
    second write. *)
Lemma update_flat_entries m a r t1 t2 :
  let m' := dict_update (dict_update m (access_kw a t1)) (refresh_kw r t2) in
  m' !! "key" = Some (VStr "auth_refresh_token") /\
  m' !! "value" = Some (val_of_token r) /\
  m' !! "secure" = Some (VBool true) /\
  m' !! "httponly" = Some (VBool (debug config)) /\
  m' !! "samesite" = Some (VStr "lax") /\
  m' !! "max_age" = Some (VInt (refresh_token_expire_time config)) /\
  m' !! "expires" = Some (VDatetime (t2 + get_refresh_expires_time config)).
Proof.
  unfold dict_update, CookieResponseToken.access_kw,
    CookieResponseToken.refresh_kw. cbn [foldl fst snd].
  repeat split; simplify_map_eq; reflexivity.
Qed.

(** *** The claims *)

(** C2. Whenever the signer hands out an access token or a refresh token
    that is empty or unset, [create_response_cookies] returns [False]: the
    call ends, and ends with the literal [False], not with a response. *)
Theorem create_soft_failure user bt rq w :
  truthy (signed jwt_encoder user).1 = false \/
  truthy (signed jwt_encoder user).2 = false ->
  (create_response_cookies config jwt_encoder user bt rq w).1 = PyFalse.
Proof.
  intros H. rewrite create_run_fail; [reflexivity|].
  unfold succeeds. destruct H as [-> | ->]; [reflexivity|].
  apply andb_false_r.
Qed.

(** C3. A successful [create_response_cookies] returns a response with
    status 200 and media type [application/json] whose body is the JSON
    object with the single member [access_token], holding the access token
    just signed: an opening brace, the quoted name, a colon and a space, the
    quoted and escaped token, a closing brace. A token of plain characters,
    as every JWT is, stands in the body as it is. The body is the same
    whatever the refresh token is, and a refresh token of more than twelve
    characters without a double quote occurs in the body of a plain access
    token only if it occurs in that access token. *)
Theorem create_body user bt rq w resp w' :
  create_response_cookies config jwt_encoder user bt rq w = (Obj resp, w') ->
  status_code resp = 200 /\
  media_type resp = "application/json" /\
  (exists a, (signed jwt_encoder user).1 = Some a /\ a <> EmptyString /\
             content resp = json_dumps [("access_token", Some a)] /\
             content resp =
               String "{"%char (String "034"%char ("access_token" +:+
                 String "034"%char (": " +:+
                   String "034"%char
                     (py_escape a +:+ String "034"%char "}")))) /\
             (plain a = true ->
              content resp =
                String "{"%char (String "034"%char ("access_token" +:+
                  String "034"%char (": " +:+
                    String "034"%char (a +:+ String "034"%char "}"))))) /\
             (forall r,
                (signed jwt_encoder user).2 = Some r ->
                plain a = true ->
                has_char "034"%char r = false ->
                (12 < String.length r)%nat ->
                occursb r a = false ->
                occursb r (content resp) = false)) /\
  (forall r', content resp = body_of (signed jwt_encoder user).1 r').
Proof.
  intros H. apply create_inv in H as (Hok & -> & _).
  destruct (ok_tokens user Hok) as (a & r & Ha & Hr & Hna & Hnr).
  split; [reflexivity|]. split; [reflexivity|]. split; [|reflexivity].
  exists a. cbn [CookieResponseToken.issued content].
  rewrite body_of_access, Ha.
  split; [reflexivity|]. split; [exact Hna|]. split; [reflexivity|].
  split; [apply BodyText.object_text|]. split.
  - intros Hp. rewrite BodyText.object_text, (BodyText.plain_escape a Hp).
    reflexivity.
  - intros r0 _ Hp Hq Hlen Hno.
    apply BodyText.occurs_in_object; assumption.
Qed.

(** C4. A successful [create_response_cookies] attaches exactly two
    cookies to the response it returns: [auth_access_token] with the access
    token just signed and [auth_refresh_token] with the refresh token just
    signed, both values being non-empty strings. *)
Theorem create_two_cookies user bt rq w resp w' :
  create_response_cookies config jwt_encoder user bt rq w = (Obj resp, w') ->
  exists ca cr,
    set_cookies resp = [ca; cr] /\
    key ca = "auth_access_token" /\ value ca = (signed jwt_encoder user).1 /\
    key cr = "auth_refresh_token" /\ value cr = (signed jwt_encoder user).2 /\
    exists a r, value ca = Some a /\ value cr = Some r /\
                a <> EmptyString /\ r <> EmptyString.
Proof.
  intros H. apply create_inv in H as (Hok & -> & _).
  destruct (ok_tokens user Hok) as (a & r & Ha & Hr & Hna & Hnr).
  exists (access_cookie (tokens user).1), (refresh_cookie (tokens user).2).
  cbn [CookieResponseToken.issued set_cookies key value
       CookieResponseToken.access_cookie CookieResponseToken.refresh_cookie].
  repeat split. exists a, r. auto.
Qed.

(** C5. A successful [create_response_cookies] or
    [update_response_cookies] calls [add_task] exactly once, with
    [auth_token_repo.create], the user, the request and the refresh and
    access tokens of that same call: the queue it was given grows by that
    one task and no other queue changes. *)
Theorem persistence_scheduled_once user bt rq w q resp wc l wu :
  background w !! bt = Some q ->
  let task :=
    {| func := auth_token_repo_create; kw_user := user; kw_request := rq;
       kw_refresh_token := (signed jwt_encoder user).2;
       kw_access_token := (signed jwt_encoder user).1 |} in
  (create_response_cookies config jwt_encoder user bt rq w = (Obj resp, wc) ->
     scheduled (events_since w wc) = [(bt, task)] /\
     background wc !! bt = Some (q ++ [task]) /\
     (forall b, b <> bt -> background wc !! b = background w !! b)) /\
  (update_response_cookies config jwt_encoder clock user bt rq w
     = (Obj l, wu) ->
     scheduled (events_since w wu) = [(bt, task)] /\
     background wu !! bt = Some (q ++ [task]) /\
     (forall b, b <> bt -> background wu !! b = background w !! b)).
Proof.
  intros Hq task. split; intros H.
  - apply create_inv in H as (Hok & _ & ->).
    rewrite events_create_ok by exact Hok.
    rewrite create_run_ok by exact Hok. cbn [snd background].
    split; [reflexivity|]. apply (queue_after bt w q task Hq).
  - apply update_inv in H as (Hok & _ & ->).
    rewrite events_update_ok by exact Hok.
    rewrite update_run_ok by exact Hok. cbn [snd background].
    split; [reflexivity|]. apply (queue_after bt w q task Hq).
Qed.

(** C6. In every run of [create_response_cookies] that returns a response,
    the tokens are signed first, the persistence task is scheduled second,
    and only then is the response built and given its cookies; the task
    scheduled carries the very tokens the cookies of the response carry, and
    sits in the queue when the response is returned. *)
Theorem persistence_before_response user bt rq w resp w' :
  create_response_cookies config jwt_encoder user bt rq w = (Obj resp, w') ->
  let evs := events_since w w' in
  let task :=
    persist_task user rq (signed jwt_encoder user).2
      (signed jwt_encoder user).1 in
  first_index is_encode evs = Some 0%nat /\
  first_index is_add_task evs = Some 1%nat /\
  first_index is_response evs = Some 2%nat /\
  first_index is_set_cookie evs = Some 3%nat /\
  scheduled evs = [(bt, task)] /\
  value <$> set_cookies resp = [kw_access_token task; kw_refresh_token task] /\
  (forall q, background w !! bt = Some q ->
             background w' !! bt = Some (q ++ [task])).
Proof.
  intros H evs task. subst evs.
  apply create_inv in H as (Hok & -> & ->).
  rewrite events_create_ok by exact Hok.
  repeat (split; [reflexivity|]).
  intros q Hq. rewrite create_run_ok by exact Hok. cbn [snd background].
  apply (queue_after bt w q task Hq).
Qed.

(** C10. When either signed token is empty or unset, both operations return
    [False] having done nothing but call the signer: no task is scheduled,
    no response is built, no cookie mapping is written, and the store of
    requests, the task queues and the clock are as they were. *)
Theorem failure_is_atomic user bt rq w :
  truthy (signed jwt_encoder user).1 = false \/
  truthy (signed jwt_encoder user).2 = false ->
  let oc := create_response_cookies config jwt_encoder user bt rq w in
  let ou := update_response_cookies config jwt_encoder clock user bt rq w in
  (oc.1 = PyFalse /\
   requests oc.2 = requests w /\ background oc.2 = background w /\
   now_reads oc.2 = now_reads w /\
   events_since w oc.2 = [EvEncode (payload user)] /\
   scheduled (events_since w oc.2) = [] /\
   responses_built (events_since w oc.2) = []) /\
  (ou.1 = PyFalse /\
   requests ou.2 = requests w /\ background ou.2 = background w /\
   now_reads ou.2 = now_reads w /\
   events_since w ou.2 = [EvEncode (payload user)] /\
   scheduled (events_since w ou.2) = [] /\
   cookie_writes (events_since w ou.2) = []).
Proof.
  intros H oc ou. subst oc ou.
  assert (Hko : ok user = false).
  { unfold succeeds. destruct H as [-> | ->]; [reflexivity|].
    apply andb_false_r. }
  rewrite create_run_fail, update_run_fail by exact Hko.
  cbn [fst snd]. rewrite events_fail.
  repeat split; reflexivity.
Qed.

(** C1, as amended. On the response a call of [create_response_cookies]
    returns, both cookies have [Secure] set and [SameSite=Lax], [HttpOnly]
    equal to the [debug] flag of the configuration, and [max_age] equal to
    the configured lifetime of their token class. When
    [update_response_cookies] returns its object, each of its two writes to
    the cookie mapping carries [secure=True], [samesite='lax'], [httponly]
    equal to the [debug] flag, and [max_age] equal to the configured
    lifetime of its token class. *)
Theorem cookie_attributes user bt rq w resp wc l wu :
  (create_response_cookies config jwt_encoder user bt rq w = (Obj resp, wc) ->
     exists ca cr,
       set_cookies resp = [ca; cr] /\
       key ca = "auth_access_token" /\ key cr = "auth_refresh_token" /\
       (forall c, c ∈ set_cookies resp ->
          secure c = true /\ samesite c = Some "lax" /\
          httponly c = debug config) /\
       max_age ca = Some (access_token_expire_time config) /\
       max_age cr = Some (refresh_token_expire_time config)) /\
  (update_response_cookies config jwt_encoder clock user bt rq w
     = (Obj l, wu) ->
     exists kwa kwr,
       cookie_writes (events_since w wu) = [(rq, kwa); (rq, kwr)] /\
       kw_get "key" kwa = Some (VStr "auth_access_token") /\
       kw_get "key" kwr = Some (VStr "auth_refresh_token") /\
       (forall kw, kw ∈ [kwa; kwr] ->
          kw_get "secure" kw = Some (VBool true) /\
          kw_get "samesite" kw = Some (VStr "lax") /\
          kw_get "httponly" kw = Some (VBool (debug config))) /\
       kw_get "max_age" kwa = Some (VInt (access_token_expire_time config)) /\
       kw_get "max_age" kwr = Some (VInt (refresh_token_expire_time config))).
Proof.
  split; intros H.
  - apply create_inv in H as (_ & -> & _).
    exists (access_cookie (tokens user).1), (refresh_cookie (tokens user).2).
    repeat (split; [reflexivity|]). split; [|split; reflexivity].
    intros c Hc. cbn [CookieResponseToken.issued set_cookies] in Hc.
    apply elem_of_cons in Hc as [-> | Hc];
      [|apply list_elem_of_singleton in Hc as ->]; repeat split.
  - apply update_inv in H as (Hok & _ & ->).
    rewrite events_update_ok by exact Hok.
    exists (access_kw (tokens user).1 (clock (now_reads w))),
           (refresh_kw (tokens user).2 (clock (S (now_reads w)))).
    repeat (split; [reflexivity|]). split; [|split; reflexivity].
    intros kw Hkw.
    apply elem_of_cons in Hkw as [-> | Hkw];
      [|apply list_elem_of_singleton in Hkw as ->]; repeat split.
Qed.


(** *** Further properties of the two functions *)

(** What the mapping holds under any name after the two writes: a keyword
    name holds the value of the second write, any other name what it held
    before. *)
Lemma lookup_after_writes m a r t1 t2 (k : string) :
  dict_update (dict_update m (access_kw a t1)) (refresh_kw r t2) !! k =
    if decide (k ∈ cookie_keywords) then kw_get k (refresh_kw r t2)
    else m !! k.
Proof.
  unfold dict_update, CookieResponseToken.access_kw,
    CookieResponseToken.refresh_kw. cbn [foldl fst snd].
  destruct (decide (k ∈ cookie_keywords)) as [Hin|Hout].
  - unfold cookie_keywords in Hin.
    repeat (apply elem_of_cons in Hin as [-> | Hin];
            [simplify_map_eq; reflexivity|]).
    apply elem_of_nil in Hin. destruct Hin.
  - rewrite !lookup_insert_ne
      by (intros <-; apply Hout; unfold cookie_keywords;
          rewrite !elem_of_cons; tauto).
    reflexivity.
Qed.

Lemma lookup_one_write m r t2 (k : string) :
  dict_update m (refresh_kw r t2) !! k =
    if decide (k ∈ cookie_keywords) then kw_get k (refresh_kw r t2)
    else m !! k.
Proof.
  unfold dict_update, CookieResponseToken.refresh_kw. cbn [foldl fst snd].
  destruct (decide (k ∈ cookie_keywords)) as [Hin|Hout].
  - unfold cookie_keywords in Hin.
    repeat (apply elem_of_cons in Hin as [-> | Hin];
            [simplify_map_eq; reflexivity|]).
    apply elem_of_nil in Hin. destruct Hin.
  - rewrite !lookup_insert_ne
      by (intros <-; apply Hout; unfold cookie_keywords;
          rewrite !elem_of_cons; tauto).
    reflexivity.
Qed.

(** The first write is dead. *)
Lemma writes_absorb m a r t1 t2 :
  dict_update (dict_update m (access_kw a t1)) (refresh_kw r t2) =
  dict_update m (refresh_kw r t2).
Proof.
  apply map_eq. intros k.
  rewrite lookup_after_writes, lookup_one_write. reflexivity.
Qed.

(** A later write of the refresh keywords hides an earlier one. *)
Lemma refresh_write_absorbs m r t r' t' :
  dict_update (dict_update m (refresh_kw r t)) (refresh_kw r' t') =
  dict_update m (refresh_kw r' t').
Proof.
  apply map_eq. intros k. rewrite !lookup_one_write.
  destruct (decide (k ∈ cookie_keywords)); reflexivity.
Qed.

Lemma dom_one_write m r t2 :
  dom (dict_update m (refresh_kw r t2)) = dom m ∪ list_to_set cookie_keywords.
Proof.
  unfold dict_update, CookieResponseToken.refresh_kw, cookie_keywords.
  cbn [foldl fst snd list_to_set]. rewrite !dom_insert_L.
  apply set_eq. intros x. rewrite !elem_of_union, !elem_of_singleton.
  rewrite elem_of_empty. tauto.
Qed.

(** X1. [create_response_cookies] never writes to the store of requests,
    never reads the clock and never writes a cookie mapping, whether it
    returns a response or [False]: the request it is given is only passed
    on to the task. *)
Theorem create_leaves_requests user bt rq w :
  let w' := (create_response_cookies config jwt_encoder user bt rq w).2 in
  requests w' = requests w /\
  now_reads w' = now_reads w /\
  clock_reads (events_since w w') = [] /\
  cookie_writes (events_since w w') = [].
Proof.
  intros w'. subst w'. destruct (ok user) eqn:E.
  - rewrite events_create_ok by exact E.
    rewrite create_run_ok by exact E. repeat split.
  - rewrite create_run_fail by exact E. cbn [snd]. rewrite events_fail.
    repeat split.
Qed.

(** X2. The two functions let the same calls through and treat the
    collaborators before the cookies alike: on any input one returns an
    object exactly when the other does, they hand the signer the same
    payload, schedule the same tasks and leave the same queues. *)
Theorem create_update_agree user bt rq w :
  let oc := create_response_cookies config jwt_encoder user bt rq w in
  let ou := update_response_cookies config jwt_encoder clock user bt rq w in
  is_obj oc.1 = is_obj ou.1 /\
  encodes (events_since w oc.2) = encodes (events_since w ou.2) /\
  scheduled (events_since w oc.2) = scheduled (events_since w ou.2) /\
  background oc.2 = background ou.2.
Proof.
  intros oc ou. subst oc ou. rewrite create_returns, update_returns.
  split; [reflexivity|]. destruct (ok user) eqn:E.
  - rewrite events_create_ok, events_update_ok by exact E.
    rewrite create_run_ok, update_run_ok by exact E. repeat split.
  - rewrite create_run_fail, update_run_fail by exact E. repeat split.
Qed.

(** The request as a successful [update_response_cookies] leaves it. *)
Lemma update_request_after user bt rq w r0 l w' :
  requests w !! rq = Some r0 ->
  update user bt rq w = (Obj l, w') ->
  requests w' !! rq =
    Some {| cookies :=
              dict_update (cookies r0)
                (refresh_kw (tokens user).2 (clock (S (now_reads w))));
            scope := scope r0 |}.
Proof.
  intros Hr H. apply update_inv in H as (Hok & _ & ->).
  destruct (update_frame user bt rq w r0 Hr Hok) as [Hrq _].
  rewrite Hrq, writes_absorb. reflexivity.
Qed.

(** X3. After a successful [update_response_cookies] the cookie mapping of
    the request is the mapping it had before with the seven keywords of the
    refresh write stored over it, no more: the access token, the access
    lifetime and the first clock reading leave nothing behind. *)
Theorem update_first_write_is_dead user bt rq w r0 l w' :
  requests w !! rq = Some r0 ->
  update_response_cookies config jwt_encoder clock user bt rq w
    = (Obj l, w') ->
  requests w' !! rq =
    Some {| cookies :=
              dict_update (cookies r0)
                (refresh_kw (signed jwt_encoder user).2
                   (clock (S (now_reads w))));
            scope := scope r0 |}.
Proof.
  intros Hr H. exact (update_request_after user bt rq w r0 l w' Hr H).
Qed.

(** X4. A successful [update_response_cookies] returns the very request it
    was given. It removes no cookie and changes none whose name is not one
    of the seven keywords; the names in the mapping afterwards are the names
    before together with the seven keywords, so at most seven entries are
    added; the rest of the request and every other request in the store are
    as they were. *)
Theorem update_keeps_other_cookies user bt rq w r0 l w' :
  requests w !! rq = Some r0 ->
  update_response_cookies config jwt_encoder clock user bt rq w
    = (Obj l, w') ->
  l = rq /\
  exists r',
    requests w' !! rq = Some r' /\
    scope r' = scope r0 /\
    (forall name : string,
       name ∉ cookie_keywords -> cookies r' !! name = cookies r0 !! name) /\
    dom (cookies r') = dom (cookies r0) ∪ list_to_set cookie_keywords /\
    (forall other, other <> rq -> requests w' !! other = requests w !! other).
Proof.
  intros Hr H.
  pose proof (update_request_after user bt rq w r0 l w' Hr H) as Hrq.
  apply update_inv in H as (Hok & -> & ->).
  destruct (update_frame user bt rq w r0 Hr Hok) as [_ Hother].
  split; [reflexivity|].
  eexists. split; [exact Hrq|]. cbn [cookies scope].
  split; [reflexivity|]. split; [|split; [apply dom_one_write|exact Hother]].
  intros name Hn. rewrite lookup_one_write.
  destruct (decide (name ∈ cookie_keywords)); [contradiction|reflexivity].
Qed.


(** X6. The task scheduled by a successful [update_response_cookies] holds
    the request by reference, so when it runs it finds the request with the
    mapping already overwritten: the entry [value] is the refresh token the
    task was given. *)
Theorem update_task_sees_written_request user bt rq w r0 q l w' :
  requests w !! rq = Some r0 ->
  background w !! bt = Some q ->
  update_response_cookies config jwt_encoder clock user bt rq w
    = (Obj l, w') ->
  exists t r',
    background w' !! bt = Some (q ++ [t]) /\
    requests w' !! kw_request t = Some r' /\
    cookies r' !! "value" = Some (val_of_token (kw_refresh_token t)) /\
    cookies r' !! "key" = Some (VStr "auth_refresh_token").
Proof.
  intros Hr Hq H.
  pose proof (update_request_after user bt rq w r0 l w' Hr H) as Hrq.
  apply update_inv in H as (Hok & _ & ->).
  exists (persist_task user rq (tokens user).2 (tokens user).1).
  eexists. split; [|split; [exact Hrq|]].
  - rewrite update_run_ok by exact Hok. cbn [snd background].
    apply (queue_after bt w q _ Hq).
  - cbn [cookies kw_request kw_refresh_token persist_task].
    rewrite !lookup_one_write. split; reflexivity.
Qed.

(** X7. Two successful calls of [update_response_cookies] in a row, for any
    two users: both tasks are queued, in the order of the calls and without
    merging, while the cookie mapping shows the second call alone: it is
    the original mapping with the keywords of the second refresh write,
    taken at the fourth clock reading. *)
Theorem update_twice u1 u2 bt rq w r0 q l1 w1 l2 w2 :
  requests w !! rq = Some r0 ->
  background w !! bt = Some q ->
  update_response_cookies config jwt_encoder clock u1 bt rq w
    = (Obj l1, w1) ->
  update_response_cookies config jwt_encoder clock u2 bt rq w1
    = (Obj l2, w2) ->
  background w2 !! bt =
    Some (q ++ [persist_task u1 rq (signed jwt_encoder u1).2
                  (signed jwt_encoder u1).1;
                persist_task u2 rq (signed jwt_encoder u2).2
                  (signed jwt_encoder u2).1]) /\
  requests w2 !! rq =
    Some {| cookies :=
              dict_update (cookies r0)
                (refresh_kw (signed jwt_encoder u2).2
                   (clock (3 + now_reads w)%nat));
            scope := scope r0 |} /\
  now_reads w2 = (4 + now_reads w)%nat.
Proof.
  intros Hr Hq H1 H2.
  pose proof (update_request_after u1 bt rq w r0 l1 w1 Hr H1) as Hr1.
  pose proof (update_request_after u2 bt rq w1 _ l2 w2 Hr1 H2) as Hr2.
  apply update_inv in H1 as (Hok1 & _ & ->).
  apply update_inv in H2 as (Hok2 & _ & ->).
  assert (Hn : now_reads (update u1 bt rq w).2 = S (S (now_reads w))).
  { rewrite update_run_ok by exact Hok1. reflexivity. }
  assert (Hq1 : background (update u1 bt rq w).2 !! bt =
                Some (q ++ [persist_task u1 rq (tokens u1).2 (tokens u1).1])).
  { rewrite update_run_ok by exact Hok1. cbn [snd background].
    apply (queue_after bt w q _ Hq). }
  split; [|split].
  - rewrite (update_run_ok u2) by exact Hok2. cbn [snd background].
    destruct (queue_after bt (update u1 bt rq w).2 _
                (persist_task u2 rq (tokens u2).2 (tokens u2).1) Hq1)
      as [-> _].
    rewrite <- app_assoc. reflexivity.
  - rewrite Hr2. cbn [cookies scope]. rewrite Hn, refresh_write_absorbs.
    reflexivity.
  - rewrite (update_run_ok u2) by exact Hok2. cbn [snd now_reads].
    rewrite Hn. reflexivity.
Qed.

(** X9. Whatever the outcome, each of the two functions calls the signer
    exactly once, and the payload it passes holds one member, [user_id],
    the string form of the id of the user: nothing else of the user, the
    request or the configuration goes into the tokens. *)
Theorem signer_called_once user bt rq w :
  let wc := (create_response_cookies config jwt_encoder user bt rq w).2 in
  let wu :=
    (update_response_cookies config jwt_encoder clock user bt rq w).2 in
  encodes (events_since w wc) = [[("user_id", Some (py_str (id user)))]] /\
  encodes (events_since w wu) = [[("user_id", Some (py_str (id user)))]].
Proof.
  intros wc wu. subst wc wu. destruct (ok user) eqn:E.
  - rewrite events_create_ok, events_update_ok by exact E. split; reflexivity.
  - rewrite create_run_fail, update_run_fail by exact E. cbn [snd].
    rewrite events_fail. split; reflexivity.
Qed.

(** X10. What [create_response_cookies] returns does not depend on the
    request, on the task queue or on anything in the world: the same user
    gets the same result with any other request, queue and world, so the
    response carries nothing of the request. *)
Theorem create_result_ignores_request user bt rq w bt' rq' w' :
  (create_response_cookies config jwt_encoder user bt rq w).1 =
  (create_response_cookies config jwt_encoder user bt' rq' w').1.
Proof.
  destruct (ok user) eqn:E.
  - rewrite !create_run_ok by exact E. reflexivity.
  - rewrite !create_run_fail by exact E. reflexivity.
Qed.

End Runs.

(** *** The claims at the sample inputs *)

Import Sample.

Abbreviation rq1 := 1%positive (only parsing).
Abbreviation bt2 := 2%positive (only parsing).

(** C1, as the spec words it, fails: with [debug] off, a successful
    [create_response_cookies] returns a response none of whose cookies is
    [HttpOnly]; with [debug] on, both are. *)
Lemma httponly_follows_debug :
  exists resp w' resp1 w1,
    create_response_cookies (settings false) enc user42 bt2 rq1 world
      = (Obj resp, w') /\
    ~ Forall spec_flags (set_cookies resp) /\
    httponly <$> set_cookies resp = [false; false] /\
    create_response_cookies (settings true) enc user42 bt2 rq1 world
      = (Obj resp1, w1) /\
    httponly <$> set_cookies resp1 = [true; true].
Proof.
  exists (issued (settings false) (Some "A") (Some "R")),
    (create_response_cookies (settings false) enc user42 bt2 rq1 world).2,
    (issued (settings true) (Some "A") (Some "R")),
    (create_response_cookies (settings true) enc user42 bt2 rq1 world).2.
  split; [reflexivity|].
  split; [|split; [reflexivity|split; reflexivity]].
  intros HF. apply Forall_cons in HF as [(Hh & _) _].
  discriminate Hh.
Qed.

Lemma cookie_attributes_witness :
  let cfg := settings false in
  let oc := create_response_cookies cfg enc user42 bt2 rq1 world in
  let ou := update_response_cookies cfg enc clock user42 bt2 rq1 world in
  exists resp,
    oc = (Obj resp, oc.2) /\ ou = (Obj rq1, ou.2) /\
    (exists ca cr,
       set_cookies resp = [ca; cr] /\
       key ca = "auth_access_token" /\ key cr = "auth_refresh_token" /\
       (forall c, c ∈ set_cookies resp ->
          secure c = true /\ samesite c = Some "lax" /\
          httponly c = debug cfg) /\
       max_age ca = Some (access_token_expire_time cfg) /\
       max_age cr = Some (refresh_token_expire_time cfg)) /\
    (exists kwa kwr,
       cookie_writes (events_since world ou.2) = [(rq1, kwa); (rq1, kwr)] /\
       kw_get "key" kwa = Some (VStr "auth_access_token") /\
       kw_get "key" kwr = Some (VStr "auth_refresh_token") /\
       (forall kw, kw ∈ [kwa; kwr] ->
          kw_get "secure" kw = Some (VBool true) /\
          kw_get "samesite" kw = Some (VStr "lax") /\
          kw_get "httponly" kw = Some (VBool (debug cfg))) /\
       kw_get "max_age" kwa = Some (VInt (access_token_expire_time cfg)) /\
       kw_get "max_age" kwr = Some (VInt (refresh_token_expire_time cfg))).
Proof.
  intros cfg oc ou.
  exists (issued cfg (Some "A") (Some "R")).
  split; [reflexivity|]. split; [reflexivity|].
  destruct (cookie_attributes cfg enc clock user42 bt2 rq1 world
              (issued cfg (Some "A") (Some "R")) oc.2 rq1 ou.2) as [Hc Hu].
  split; [apply Hc|apply Hu]; reflexivity.
Defined.

Lemma create_soft_failure_witness :
  (truthy (signed enc_empty user42).1 = false \/
   truthy (signed enc_empty user42).2 = false) /\
  (create_response_cookies (settings false) enc_empty user42 bt2 rq1 world).1
    = PyFalse /\
  (truthy (signed enc_unset user42).1 = false \/
   truthy (signed enc_unset user42).2 = false) /\
  (create_response_cookies (settings false) enc_unset user42 bt2 rq1 world).1
    = PyFalse.
Proof.
  split; [left; reflexivity|]. split.
  - apply create_soft_failure. left. reflexivity.
  - split; [right; reflexivity|].
    apply create_soft_failure. right. reflexivity.
Defined.

Lemma create_body_witness :
  let cfg := settings false in
  let oc := create_response_cookies cfg enc_jwt user42 bt2 rq1 world in
  let oq := create_response_cookies cfg enc_quote user42 bt2 rq1 world in
  let access := "eyJhbGciOi.eyJhY2Nlc3M.c2ln" in
  let refresh := "eyJhbGciOi.eyJyZWZyZXNo.c2ln" in
  exists resp respq,
    oc = (Obj resp, oc.2) /\
    oq = (Obj respq, oq.2) /\
    status_code resp = 200 /\
    media_type resp = "application/json" /\
    (signed enc_jwt user42).2 = Some refresh /\
    plain access = true /\
    has_char "034"%char refresh = false /\
    (12 < String.length refresh)%nat /\
    occursb refresh access = false /\
    content resp =
      String "{"%char (String "034"%char ("access_token" +:+
        String "034"%char (": " +:+
          String "034"%char (access +:+ String "034"%char "}")))) /\
    occursb refresh (content resp) = false /\
    content respq =
      String "{"%char (String "034"%char ("access_token" +:+
        String "034"%char (": " +:+
          String "034"%char
            (String "092"%char (String "034"%char
               (String "092"%char (String "092"%char
                  (String "092"%char "u00e9x")))) +:+
             String "034"%char "}")))).
Proof.
  intros cfg oc oq access refresh.
  exists (issued cfg (Some access) (Some refresh)),
    (issued cfg (signed enc_quote user42).1 (Some "R")).
  split; [reflexivity|]. split; [reflexivity|].
  destruct (create_body cfg enc_jwt user42 bt2 rq1 world
              (issued cfg (Some access) (Some refresh)) oc.2 eq_refl)
    as (Hs & Hm & (a & Ha & _ & _ & _ & Hplain & Hocc) & _).
  injection Ha as <-.
  destruct (create_body cfg enc_quote user42 bt2 rq1 world
              (issued cfg (signed enc_quote user42).1 (Some "R")) oq.2
              eq_refl)
    as (_ & _ & (aq & Haq & _ & _ & Hlit & _) & _).
  injection Haq as <-.
  split; [exact Hs|]. split; [exact Hm|]. split; [reflexivity|].
  split; [reflexivity|]. split; [reflexivity|].
  split; [vm_compute; lia|]. split; [reflexivity|].
  split; [apply Hplain; reflexivity|]. split; [|exact Hlit].
  apply Hocc; try reflexivity. vm_compute. lia.
Defined.

Lemma create_two_cookies_witness :
  let cfg := settings false in
  let oc := create_response_cookies cfg enc user42 bt2 rq1 world in
  exists resp,
    oc = (Obj resp, oc.2) /\
    exists ca cr,
      set_cookies resp = [ca; cr] /\
      key ca = "auth_access_token" /\ value ca = (signed enc user42).1 /\
      key cr = "auth_refresh_token" /\ value cr = (signed enc user42).2 /\
      exists a r, value ca = Some a /\ value cr = Some r /\
                  a <> EmptyString /\ r <> EmptyString.
Proof.
  intros cfg oc. exists (issued cfg (Some "A") (Some "R")).
  split; [reflexivity|].
  apply (create_two_cookies cfg enc user42 bt2 rq1 world _ oc.2). reflexivity.
Defined.

Lemma persistence_scheduled_once_witness :
  let cfg := settings false in
  let oc := create_response_cookies cfg enc user42 bt2 rq1 world in
  let ou := update_response_cookies cfg enc clock user42 bt2 rq1 world in
  let task :=
    {| func := auth_token_repo_create; kw_user := user42; kw_request := rq1;
       kw_refresh_token := (signed enc user42).2;
       kw_access_token := (signed enc user42).1 |} in
  background world !! bt2 = Some [] /\
  (exists resp, oc = (Obj resp, oc.2)) /\
  ou = (Obj rq1, ou.2) /\
  (scheduled (events_since world oc.2) = [(bt2, task)] /\
   background oc.2 !! bt2 = Some ([] ++ [task]) /\
   (forall b, b <> bt2 -> background oc.2 !! b = background world !! b)) /\
  (scheduled (events_since world ou.2) = [(bt2, task)] /\
   background ou.2 !! bt2 = Some ([] ++ [task]) /\
   (forall b, b <> bt2 -> background ou.2 !! b = background world !! b)).
Proof.
  intros cfg oc ou task.
  split; [reflexivity|].
  split; [exists (issued cfg (Some "A") (Some "R")); reflexivity|].
  split; [reflexivity|].
  destruct (persistence_scheduled_once cfg enc clock user42 bt2 rq1 world []
              (issued cfg (Some "A") (Some "R")) oc.2 rq1 ou.2)
    as [Hc Hu]; [reflexivity|].
  split; [apply Hc|apply Hu]; reflexivity.
Defined.

Lemma persistence_before_response_witness :
  let cfg := settings false in
  let oc := create_response_cookies cfg enc user42 bt2 rq1 world in
  let evs := events_since world oc.2 in
  let task := persist_task user42 rq1 (signed enc user42).2
                (signed enc user42).1 in
  exists resp,
    oc = (Obj resp, oc.2) /\
    first_index is_encode evs = Some 0%nat /\
    first_index is_add_task evs = Some 1%nat /\
    first_index is_response evs = Some 2%nat /\
    first_index is_set_cookie evs = Some 3%nat /\
    scheduled evs = [(bt2, task)] /\
    value <$> set_cookies resp
      = [kw_access_token task; kw_refresh_token task] /\
    (forall q, background world !! bt2 = Some q ->
               background oc.2 !! bt2 = Some (q ++ [task])).
Proof.
  intros cfg oc evs task. exists (issued cfg (Some "A") (Some "R")).
  split; [reflexivity|].
  apply (persistence_before_response cfg enc user42 bt2 rq1 world _ oc.2).
  reflexivity.
Defined.

Lemma failure_is_atomic_witness :
  let cfg := settings false in
  let oc := create_response_cookies cfg enc_unset user42 bt2 rq1 world in
  let ou := update_response_cookies cfg enc_unset clock user42 bt2 rq1 world in
  (truthy (signed enc_unset user42).1 = false \/
   truthy (signed enc_unset user42).2 = false) /\
  (oc.1 = PyFalse /\
   requests oc.2 = requests world /\ background oc.2 = background world /\
   now_reads oc.2 = now_reads world /\
   events_since world oc.2 = [EvEncode (payload user42)] /\
   scheduled (events_since world oc.2) = [] /\
   responses_built (events_since world oc.2) = []) /\
  (ou.1 = PyFalse /\
   requests ou.2 = requests world /\ background ou.2 = background world /\
   now_reads ou.2 = now_reads world /\
   events_since world ou.2 = [EvEncode (payload user42)] /\
   scheduled (events_since world ou.2) = [] /\
   cookie_writes (events_since world ou.2) = []).
Proof.
  intros cfg oc ou. split; [right; reflexivity|].
  apply (failure_is_atomic cfg enc_unset clock user42 bt2 rq1 world).
  right. reflexivity.
Defined.

(** C7 at a sample input: a request that carries one cookie, [theme]. After
    a successful [update_response_cookies] the rest of the request is as it
    was, but its cookie mapping holds no entry named [auth_access_token] or
    [auth_refresh_token]: it holds [theme] and the seven keyword names, with
    the values of the second write, and the access token is nowhere in it. *)
Theorem update_leaves_no_named_cookie :
  let ou := update_response_cookies (settings true) enc clock user42 bt2 rq1
              world in
  ou.1 = Obj rq1 /\
  exists r',
    requests ou.2 !! rq1 = Some r' /\
    scope r' = [("path", "/login")] /\
    cookies r' !! "auth_access_token" = None /\
    cookies r' !! "auth_refresh_token" = None /\
    cookies r' =
      list_to_map
        [("theme", VStr "dark");
         ("key", VStr "auth_refresh_token"); ("value", VStr "R");
         ("secure", VBool true); ("httponly", VBool true);
         ("samesite", VStr "lax"); ("max_age", VInt 604800);
         ("expires", VDatetime 605801)] /\
    bool_decide (VStr "A" ∈ (map_to_list (cookies r')).*2) = false.
Proof.
  intros ou. split; [reflexivity|].
  eexists. split; [vm_compute; reflexivity|].
  repeat split; vm_compute; reflexivity.
Qed.

(** C8 at a sample input with lifetimes 900 and 604800, the clock reading
    1000 and then 1001. [create_response_cookies] gives its two cookies the
    two lifetimes as [max_age]. After [update_response_cookies] the mapping
    holds one [max_age] and one [expires], those of the refresh class; the
    access lifetime and the access expiry are nowhere in it. *)
Theorem update_keeps_one_expiry :
  let oc := create_response_cookies (settings true) enc user42 bt2 rq1 world in
  let ou := update_response_cookies (settings true) enc clock user42 bt2 rq1
              world in
  (exists resp,
     oc.1 = Obj resp /\
     (fun c => (key c, max_age c, expires c)) <$> set_cookies resp =
       [("auth_access_token", Some 900, None);
        ("auth_refresh_token", Some 604800, None)]) /\
  cookie_writes (events_since world ou.2) =
    [(rq1, access_kw (settings true) (Some "A") 1000);
     (rq1, refresh_kw (settings true) (Some "R") 1001)] /\
  kw_get "expires" (access_kw (settings true) (Some "A") 1000)
    = Some (VDatetime (1000 + 900)) /\
  exists r',
    requests ou.2 !! rq1 = Some r' /\
    cookies r' !! "max_age" = Some (VInt 604800) /\
    cookies r' !! "expires" = Some (VDatetime (1001 + 604800)) /\
    bool_decide (VInt 900 ∈ (map_to_list (cookies r')).*2) = false /\
    bool_decide (VDatetime (1000 + 900) ∈ (map_to_list (cookies r')).*2)
      = false.
Proof.
  intros oc ou. split; [eexists; split; vm_compute; reflexivity|].
  split; [vm_compute; reflexivity|]. split; [reflexivity|].
  eexists. split; [vm_compute; reflexivity|].
  repeat split; vm_compute; reflexivity.
Qed.


(** *** The further properties at the sample inputs *)

Lemma update_first_write_is_dead_witness :
  let cfg := settings false in
  let ou := update_response_cookies cfg enc clock user42 bt2 rq1 world in
  requests world !! rq1 = Some request0 /\
  ou = (Obj rq1, ou.2) /\
  requests ou.2 !! rq1 =
    Some {| cookies :=
              dict_update (cookies request0)
                (refresh_kw cfg (signed enc user42).2
                   (clock (S (now_reads world))));
            scope := scope request0 |}.
Proof.
  intros cfg ou. split; [reflexivity|]. split; [reflexivity|].
  apply (update_first_write_is_dead cfg enc clock user42 bt2 rq1 world
           request0 rq1 ou.2); reflexivity.
Defined.

Lemma update_keeps_other_cookies_witness :
  let cfg := settings false in
  let ou := update_response_cookies cfg enc clock user42 bt2 rq1 world in
  requests world !! rq1 = Some request0 /\
  ou = (Obj rq1, ou.2) /\
  rq1 = rq1 /\
  exists r',
    requests ou.2 !! rq1 = Some r' /\
    scope r' = scope request0 /\
    (forall name : string,
       name ∉ cookie_keywords ->
       cookies r' !! name = cookies request0 !! name) /\
    dom (cookies r') = dom (cookies request0) ∪ list_to_set cookie_keywords /\
    (forall other, other <> rq1 ->
       requests ou.2 !! other = requests world !! other).
Proof.
  intros cfg ou. split; [reflexivity|]. split; [reflexivity|].
  apply (update_keeps_other_cookies cfg enc clock user42 bt2 rq1 world
           request0 rq1 ou.2); reflexivity.
Defined.


Lemma update_task_sees_written_request_witness :
  let cfg := settings false in
  let ou := update_response_cookies cfg enc clock user42 bt2 rq1 world in
  requests world !! rq1 = Some request0 /\
  background world !! bt2 = Some [] /\
  ou = (Obj rq1, ou.2) /\
  exists t r',
    background ou.2 !! bt2 = Some ([] ++ [t]) /\
    requests ou.2 !! kw_request t = Some r' /\
    cookies r' !! "value" = Some (val_of_token (kw_refresh_token t)) /\
    cookies r' !! "key" = Some (VStr "auth_refresh_token").
Proof.
  intros cfg ou. split; [reflexivity|]. split; [reflexivity|].
  split; [reflexivity|].
  apply (update_task_sees_written_request cfg enc clock user42 bt2 rq1 world
           request0 [] rq1 ou.2); reflexivity.
Defined.

Lemma update_twice_witness :
  let cfg := settings false in
  let o1 := update_response_cookies cfg enc_by_user clock user42 bt2 rq1
              world in
  let o2 := update_response_cookies cfg enc_by_user clock user7 bt2 rq1
              o1.2 in
  requests world !! rq1 = Some request0 /\
  background world !! bt2 = Some [] /\
  o1 = (Obj rq1, o1.2) /\
  o2 = (Obj rq1, o2.2) /\
  background o2.2 !! bt2 =
    Some ([] ++ [persist_task user42 rq1 (signed enc_by_user user42).2
                   (signed enc_by_user user42).1;
                 persist_task user7 rq1 (signed enc_by_user user7).2
                   (signed enc_by_user user7).1]) /\
  requests o2.2 !! rq1 =
    Some {| cookies :=
              dict_update (cookies request0)
                (refresh_kw cfg (signed enc_by_user user7).2
                   (clock (3 + now_reads world)%nat));
            scope := scope request0 |} /\
  now_reads o2.2 = (4 + now_reads world)%nat.
Proof.
  intros cfg o1 o2. split; [reflexivity|]. split; [reflexivity|].
  split; [reflexivity|]. split; [reflexivity|].
  apply (update_twice cfg enc_by_user clock user42 user7 bt2 rq1 world
           request0 [] rq1 o1.2 rq1 o2.2); reflexivity.
Defined.

End TokenCookies.

(** * Properties of the page loader *)

Module AddressPageLoad.
Import AddressPage.

(** C9. Whatever fetch capability [load] is given, it fulfils with the
    object whose only key is [addressList] and whose value is what
    [get_addressList] returns for that capability, untouched; the state is
    the one that single call leaves, and the accessor is called once, with
    that capability. *)
Theorem load_passes_through {Fetch Value St : Type}
    (get_addressList : Fetch -> St -> Value * St)
    (ev : ServerLoadEvent Fetch) (s : St) (calls : list Fetch) :
  load get_addressList ev s =
    (Fulfilled [("addressList", (get_addressList (fetch ev) s).1)],
     (get_addressList (fetch ev) s).2) /\
  (load (logged get_addressList) ev (calls, s)).2.1 = calls ++ [fetch ev].
Proof.
  unfold load, logged. cbn [fst snd].
  destruct (get_addressList (fetch ev) s) as [v s1]. split; reflexivity.
Qed.

End AddressPageLoad.
